(** * mdx-mermaid: the Mermaid component (render / theme synchronisation)

    A shallow embedding of [Mermaid.tsx]: the module-level identifier
    counter, the theme state fed by a MutationObserver on the [html]
    element, the render effect that (re-)initialises the mermaid engine
    and asks it for an svg, and the "open svg in a new window" opener.

    React's hook discipline is written out as explicit state passing:
    the two [useState] cells are the fields of [Comp], the effects are
    computations over the host [World], and the asynchronous callbacks
    (observer notifications, zero-delay timers, engine completions) are
    the [Event]s of a step function. *)

From Stdlib Require Import NArith DecimalString DecimalN.
From stdpp Require Import gmap strings list fin_maps.

Open Scope string_scope.

(** ** Data model *)

(** [mermaidAPI.Theme] is a string enumeration. *)
Definition Theme : Type := string.

(** Values of the fields of an engine configuration object. *)
Inductive JsVal :=
| VBool (b : bool)
| VStr (s : string)
| VNum (n : Z).

(** [mermaidAPI.Config], an object passed through to the engine, is a
    [gmap string JsVal]. *)

(** [Config.theme]. *)
Record ThemeOverride := {
  light : Theme;
  dark : Theme
}.

(** [Config] of config.model.ts; every member is optional. *)
Record Config := {
  theme : option ThemeOverride;
  mermaid : option (gmap string JsVal);
  showOpenLink : option bool
}.

(** The [html] element, as far as the component looks at it, is the map
    of its attributes, a [gmap string string]. *)

Inductive MutationType := attributes | characterData | childList.

#[global] Instance MutationType_eq_dec : EqDecision MutationType.
Proof. solve_decision. Defined.

(** A [MutationRecord] handed to the observer callback. *)
Record MutationRecord := {
  type : MutationType;
  attributeName : option string;
  target : gmap string string
}.

(** A [Blob] built from string parts with a MIME type. *)
Record Blob := {
  blobParts : list string;
  blob_type : string
}.

(** Calls made on the engine and on the host, in order. *)
Inductive Action :=
| ActInitialize (cfg : gmap string JsVal)
| ActRender (rid chart : string)
| ActSetTimeout (delay : N)
| ActObserve
| ActDisconnect
| ActCreateObjectURL (b : Blob)
| ActWindowOpen (url : string).

(** A request the engine has accepted and not yet answered: the numeric
    value of [id] it was issued under, the chart, and the svg its
    callback will be called with. *)
Record Request := {
  req_seq : N;
  req_chart : string;
  req_svg : string
}.

(** What lives outside the component instance: the module-level [id],
    the engine's process-wide configuration, the requests in flight, the
    zero-delay timers (each holding the chart its [render] closure
    captured) and the trace of calls. *)
Record World := {
  id : N;
  initialized : option (gmap string JsVal);
  inflight : list Request;
  timers : list string;
  log : list Action
}.

Definition set_id (n : N) (w : World) : World :=
  {| id := n; initialized := initialized w; inflight := inflight w;
     timers := timers w; log := log w |}.

Definition set_initialized (c : gmap string JsVal) (w : World) : World :=
  {| id := id w; initialized := Some c; inflight := inflight w;
     timers := timers w; log := log w |}.

Definition set_inflight (l : list Request) (w : World) : World :=
  {| id := id w; initialized := initialized w; inflight := l;
     timers := timers w; log := log w |}.

Definition set_timers (l : list string) (w : World) : World :=
  {| id := id w; initialized := initialized w; inflight := inflight w;
     timers := l; log := log w |}.

Definition emit (a : Action) (w : World) : World :=
  {| id := id w; initialized := initialized w; inflight := inflight w;
     timers := timers w; log := log w ++ [a] |}.

(** The state before the module is first used: [let id = 0]. *)
Definition fresh_world : World :=
  {| id := 0%N; initialized := None; inflight := []; timers := []; log := [] |}.

(** The hook state and props of one mounted instance. *)
Record Comp := {
  chart : string;
  config : option Config;
  cur_theme : Theme;
  svg : string
}.

Definition setTheme (t : Theme) (c : Comp) : Comp :=
  {| chart := chart c; config := config c; cur_theme := t; svg := svg c |}.

Definition setSvg (s : string) (c : Comp) : Comp :=
  {| chart := chart c; config := config c; cur_theme := cur_theme c; svg := s |}.

Definition setChart (s : string) (c : Comp) : Comp :=
  {| chart := s; config := config c; cur_theme := cur_theme c; svg := svg c |}.

(** ** Computations that may throw *)

(** A thrown value is identified by its message. *)

Inductive result (A : Type) :=
| Ok (a : A)
| Throw (e : string).
Arguments Ok {A} a.
Arguments Throw {A} e.

(** A computation over a state [S]; a throw keeps the state reached. *)
Definition M (S A : Type) : Type := S -> result A * S.

Definition ret {S A} (a : A) : M S A := fun s => (Ok a, s).

Definition bind {S A B} (m : M S A) (k : A -> M S B) : M S B :=
  fun s => match m s with
           | (Ok a, s') => k a s'
           | (Throw e, s') => (Throw e, s')
           end.

Definition modify {S} (f : S -> S) : M S unit := fun s => (Ok tt, f s).

Definition gets {S A} (f : S -> A) : M S A := fun s => (Ok (f s), s).

(** [try { m } catch { h }] *)
Definition try_catch {S A} (m : M S A) (h : string -> M S A) : M S A :=
  fun s => match m s with
           | (Ok a, s') => (Ok a, s')
           | (Throw e, s') => h e s'
           end.

Notation "'let*' x ':=' m 'in' k" := (bind m (fun x => k))
  (at level 10, x name, m at level 100, k at level 200).
Notation "m '>>' k" := (bind m (fun _ => k))
  (at level 61, left associativity).

(** ** The engine and the host, as the component sees them *)

Record Host := {
  (** [mermaid.render(id, chart, cb)] under the engine configuration in
      force: it throws, or accepts the request and will call [cb] with
      an svg. *)
  mermaid_render : option (gmap string JsVal) -> string -> string -> result string;
  (** The exception [observer.disconnect()] raises, if any. *)
  disconnect_error : World -> option string;
  (** [URL.createObjectURL]. *)
  createObjectURL : Blob -> string
}.

(** ** Theme resolution *)

Definition LIGHT_THEME_KEY : string := "light".
Definition DARK_THEME_KEY : string := "dark".
Definition HTML_THEME_ATTRIBUTE : string := "data-theme".

Inductive ThemeKey := Light | Dark.

(** Modelled from the spec: the light/dark case of the host attribute,
    part of theme.helper's [getTheme], whose file is not among the
    sources. The raw value is mapped to light or dark; an absent or
    unrecognised value is light. *)
Definition theme_key (attr : option string) : ThemeKey :=
  match attr with
  | Some a => if decide (a = DARK_THEME_KEY) then Dark else Light
  | None => Light
  end.

(** Modelled from the spec: theme.helper's [getTheme] on the value of the
    host attribute, whose file is not among the sources. With a theme
    override in the configuration the configured identifier of the
    light/dark case is returned; without one, the key of the case. *)
Definition resolve (attr : option string) (cfg : option Config) : Theme :=
  match cfg ≫= theme with
  | Some t => match theme_key attr with Light => light t | Dark => dark t end
  | None => match theme_key attr with
            | Light => LIGHT_THEME_KEY
            | Dark => DARK_THEME_KEY
            end
  end.

(** Modelled from the spec: [getTheme(html, config)] of theme.helper,
    whose file is not among the sources, reads the attribute off the
    element and resolves it. *)
Definition getTheme (html : gmap string string) (cfg : option Config) : Theme :=
  resolve (html !! HTML_THEME_ATTRIBUTE) cfg.

(** ** The component *)

(** [id.toString()] *)
Definition N_toString (n : N) : string := NilEmpty.string_of_uint (N.to_uint n).

(** [`mermaid-svg-${id.toString()}`] *)
Definition render_id (n : N) : string := "mermaid-svg-" ++ N_toString n.

(** The rendered tree. *)
Record Opener := {
  fillColor : string;
  opener_svg : string
}.

Inductive Element :=
| EmptyDiv
| SvgWrapper (opener : option Opener) (container_html : string).

(** What can happen to a mounted instance: the observer callback is
    called with a batch of mutations; the oldest zero-delay timer fires;
    the engine calls back for the [k]-th request in flight, in any order
    it likes; the parent re-renders with another chart; the opener is
    clicked. *)
Inductive Event :=
| EvMutations (mutations : list MutationRecord)
| EvTimeout
| EvRendered (k : nat)
| EvChart (s : string)
| EvClickOpener.

Definition liftW {A} (m : M World A) : M (Comp * World) A :=
  fun s => match m (snd s) with (r, w') => (r, (fst s, w')) end.

Definition liftC (f : Comp -> Comp) : M (Comp * World) unit :=
  modify (fun s => (f (fst s), snd s)).

Section Component.
Context (host : Host).

(** [mermaid.initialize(cfg)] sets the engine's process-wide
    configuration. *)
Definition mermaid_initialize (cfg : gmap string JsVal) : M World unit :=
  modify (emit (ActInitialize cfg)) >> modify (set_initialized cfg).

Definition engine_call (rid chart : string) : M World string :=
  fun w => (mermaid_render host (initialized w) rid chart, w).

Definition accept (r : Request) (w : World) : World :=
  set_inflight (inflight w ++ [r]) w.

(** The [render] closure of the render effect: the engine is called with
    an identifier built from [id], then [id++]. *)
Definition render (chart : string) : M World unit :=
  let* n := gets id in
  modify (emit (ActRender (render_id n) chart)) >>
  let* s := engine_call (render_id n) chart in
  modify (accept {| req_seq := n; req_chart := chart; req_svg := s |}) >>
  modify (fun w => set_id (id w + 1)%N w).

(** [setTimeout(render, 0)] *)
Definition setTimeout0 (chart : string) : M World unit :=
  modify (emit (ActSetTimeout 0)) >>
  modify (fun w => set_timers (timers w ++ [chart]) w).

(** [{ startOnLoad: true, ...config.mermaid, theme }]: later members win. *)
Definition merged_config (opts : option (gmap string JsVal)) (theme : Theme)
  : gmap string JsVal :=
  match opts with
  | Some o => <["theme" := VStr theme]> (o ∪ {["startOnLoad" := VBool true]})
  | None => <["theme" := VStr theme]> {["startOnLoad" := VBool true]}
  end.

(** The body of the second [useEffect], dependencies [[theme, chart]]. *)
Definition render_effect (chart : string) (config : option Config) (theme : Theme)
  : M World unit :=
  match config with
  | Some c =>
      match mermaid c with
      | Some o => mermaid_initialize (merged_config (Some o) theme)
      | None => mermaid_initialize (merged_config None theme)
      end >> render chart
  | None => setTimeout0 chart
  end.

(** The [for] loop of the observer callback: the argument of the one
    [setTheme] call it makes, if it makes one. *)
Fixpoint observer_callback (config : option Config) (mutations : list MutationRecord)
  : option Theme :=
  match mutations with
  | [] => None
  | mutation :: rest =>
      if negb (bool_decide (type mutation = attributes))
         || negb (bool_decide (attributeName mutation = Some HTML_THEME_ATTRIBUTE))
      then observer_callback config rest
      else Some (getTheme (target mutation) config)
  end.

(** [observer.observe(html, { attributes: true })] *)
Definition observer_effect : M World unit := modify (emit ActObserve).

Definition observer_disconnect : M World unit :=
  modify (emit ActDisconnect) >>
  fun w => match disconnect_error host w with
           | Some e => (Throw e, w)
           | None => (Ok tt, w)
           end.

(** The cleanup returned by the first [useEffect]. *)
Definition observer_cleanup : M World unit :=
  try_catch observer_disconnect (fun _ => ret tt).

(** [openSvgInWindow] of [SvgOpenExternal]; [None] is an absent svg. *)
Definition openSvgInWindow (svg : option string) : M World unit :=
  match svg with
  | None => ret tt
  | Some s =>
      if decide (s = "") then ret tt
      else
        let svgBlob := {| blobParts := [s]; blob_type := "image/svg+xml" |} in
        modify (emit (ActCreateObjectURL svgBlob)) >>
        modify (emit (ActWindowOpen (createObjectURL host svgBlob)))
  end.

(** What the component returns; [None] is the instance rendered without
    a [window]. *)
Definition view (inst : option Comp) : Element :=
  match inst with
  | None => EmptyDiv
  | Some c =>
      SvgWrapper
        (match config c ≫= showOpenLink with
         | Some true =>
             Some {| fillColor := if decide (DARK_THEME_KEY = cur_theme c)
                                  then "#FFF" else "#000";
                     opener_svg := svg c |}
         | _ => None
         end)
        (svg c)
  end.

(** The first render and the effects run after it. [window] is the
    [html] element of the document, [None] when [window] is undefined. *)
Definition Mermaid (window : option (gmap string string))
    (chart : string) (config : option Config) : M World (option Comp) :=
  match window with
  | None => ret None
  | Some html =>
      let theme := getTheme html config in
      observer_effect >>
      render_effect chart config theme >>
      ret (Some {| chart := chart; config := config;
                   cur_theme := theme; svg := "" |})
  end.

(** A commit after [theme] or [chart] changed: both effects have a
    changed dependency, so the observer's cleanup runs and both effects
    run again. *)
Definition commit : M (Comp * World) unit :=
  let* c := gets fst in
  liftW (observer_cleanup >> observer_effect >>
         render_effect (chart c) (config c) (cur_theme c)).

(** One asynchronous callback or re-render of a mounted instance. A
    state setter called with the value already held does not re-render,
    and an effect runs again only when a dependency changed. *)
Definition step (ev : Event) : M (Comp * World) unit :=
  let* c := gets fst in
  match ev with
  | EvMutations mutations =>
      match observer_callback (config c) mutations with
      | Some t =>
          if decide (t = cur_theme c) then ret tt
          else liftC (setTheme t) >> commit
      | None => ret tt
      end
  | EvTimeout =>
      let* ts := gets (fun s => timers (snd s)) in
      match ts with
      | captured :: rest =>
          liftW (modify (set_timers rest) >> render captured)
      | [] => ret tt
      end
  | EvRendered k =>
      let* reqs := gets (fun s => inflight (snd s)) in
      match reqs !! k with
      | Some r =>
          liftW (modify (set_inflight (delete k reqs))) >>
          liftC (setSvg (req_svg r))
      | None => ret tt
      end
  | EvChart s =>
      if decide (s = chart c) then ret tt
      else liftC (setChart s) >> commit
  | EvClickOpener =>
      match view (Some c) with
      | SvgWrapper (Some o) _ => liftW (openSvgInWindow (Some (opener_svg o)))
      | _ => ret tt
      end
  end.

(** The handlers run on a list of events, up to the first throw. With a
    throw the state returned is the one reached at the throw; what
    becomes of the instance after it is [handled] and [session] below. *)
Fixpoint run (evs : list Event) : M (Comp * World) unit :=
  match evs with
  | [] => ret tt
  | ev :: rest => step ev >> run rest
  end.

(** Unmounting runs the one cleanup the component registered. *)
Definition unmount : M World unit := observer_cleanup.

End Component.

(** ** A concrete engine, host and inputs *)

(** An engine that rejects the empty chart and otherwise renders the
    identifier, the configured theme and the chart into a string. *)
Definition demo_render (cfg : option (gmap string JsVal)) (rid chart : string)
  : result string :=
  if decide (chart = "") then Throw "Parse error"
  else Ok ("<svg id=" ++ rid ++ " theme=" ++
           match cfg ≫= (.!! "theme") with
           | Some (VStr t) => t
           | _ => "none"
           end ++ ">" ++ chart ++ "</svg>").

Definition demo_host : Host :=
  {| mermaid_render := demo_render;
     disconnect_error := fun _ => Some "observer already gone";
     createObjectURL := fun b => "blob:" ++ String.concat "" (blobParts b) |}.

Definition demo_chart : string := "graph TD; A-->B;".

(** [{ showOpenLink: true }] *)
Definition cfg_plain : Config :=
  {| theme := None; mermaid := None; showOpenLink := Some true |}.

(** [{ theme: { light: "default", dark: "dark" }, showOpenLink: true }] *)
Definition cfg_override : Config :=
  {| theme := Some {| light := "default"; dark := "dark" |};
     mermaid := None; showOpenLink := Some true |}.

(** [{ mermaid: { theme: "forest", securityLevel: "loose" } }] *)
Definition cfg_options : Config :=
  {| theme := None;
     mermaid := Some (<["theme" := VStr "forest"]>
                        {["securityLevel" := VStr "loose"]});
     showOpenLink := None |}.

Definition html_light : gmap string string := {["data-theme" := "light"]}.
Definition html_dark : gmap string string := {["data-theme" := "dark"]}.

Definition to_dark : MutationRecord :=
  {| type := attributes; attributeName := Some "data-theme"; target := html_dark |}.
Definition to_light : MutationRecord :=
  {| type := attributes; attributeName := Some "data-theme"; target := html_light |}.
Definition class_changed : MutationRecord :=
  {| type := attributes; attributeName := Some "class"; target := html_dark |}.
Definition child_added : MutationRecord :=
  {| type := childList; attributeName := None; target := html_dark |}.

(** A mounted instance showing [s] under the light theme. *)
Definition showing (s : string) : Comp :=
  {| chart := demo_chart; config := Some cfg_plain; cur_theme := "light"; svg := s |}.

(** A mutation the observer callback skips. *)
Definition unrelated (m : MutationRecord) : Prop :=
  type m ≠ attributes ∨ attributeName m ≠ Some HTML_THEME_ATTRIBUTE.

(** A request is stale when a later one has been issued: [id] has moved
    past the value that follows the request's own. *)
Definition stale (r : Request) (w : World) : Prop := (req_seq r + 1 < id w)%N.

(** The instance a mount produces when its effects do not throw. *)
Definition mounted (html : gmap string string) (chart : string)
    (config : option Config) : Comp :=
  {| chart := chart; config := config;
     cur_theme := getTheme html config; svg := "" |}.

(** The result of an effect, seen from the instance [c] it ran for. *)
Definition for_instance {A} (c : Comp) (rw : result A * World)
  : result A * (Comp * World) :=
  (rw.1, (c, rw.2)).

(** The world after the observer effect was cleaned up and run again. *)
Definition resubscribed (w : World) : World :=
  emit ActObserve (emit ActDisconnect w).

(** Two requests in flight: the first issued under the light theme, the
    second, after a theme change, under the dark one. *)
Definition req_light : Request :=
  {| req_seq := 0; req_chart := demo_chart;
     req_svg := "<svg id=mermaid-svg-0 theme=light>graph TD; A-->B;</svg>" |}.
Definition req_dark : Request :=
  {| req_seq := 1; req_chart := demo_chart;
     req_svg := "<svg id=mermaid-svg-1 theme=dark>graph TD; A-->B;</svg>" |}.

Definition two_in_flight : World :=
  {| id := 2; initialized := Some (merged_config None "dark");
     inflight := [req_light; req_dark]; timers := []; log := [] |}.

(** The requests in flight are queued in the order they were issued:
    each was issued under a value of [id] below the current one, and a
    request further down the queue under a larger value. *)
Definition issue_ordered (w : World) : Prop :=
  (∀ i r, inflight w !! i = Some r → (req_seq r < id w)%N) ∧
  (∀ i j ri rj, i < j → inflight w !! i = Some ri → inflight w !! j = Some rj →
                (req_seq ri < req_seq rj)%N).

(** *** Reading a trace *)

Definition is_observe (a : Action) : bool :=
  match a with ActObserve => true | _ => false end.

Definition is_disconnect (a : Action) : bool :=
  match a with ActDisconnect => true | _ => false end.

Definition is_initialize (a : Action) : bool :=
  match a with ActInitialize _ => true | _ => false end.

(** Calls of [URL.createObjectURL] and [window.open]. *)
Definition is_open (a : Action) : bool :=
  match a with ActCreateObjectURL _ | ActWindowOpen _ => true | _ => false end.

Definition count (p : Action → bool) (l : list Action) : nat :=
  length (List.filter p l).

(** The calls one run of the render effect makes when [id] is [n]. *)
Definition effect_actions (chart : string) (config : option Config)
    (theme : Theme) (n : N) : list Action :=
  match config with
  | Some c => [ActInitialize (merged_config (mermaid c) theme);
               ActRender (render_id n) chart]
  | None => [ActSetTimeout 0]
  end.

(** The engine accepts a chart whatever the configuration and identifier. *)
Definition engine_accepts (host : Host) (chart : string) : Prop :=
  ∀ cfg rid, ∃ s, mermaid_render host cfg rid chart = Ok s.


(** The calls one step makes, read off the handlers: the observer is
    disconnected and a new one subscribed around a re-run of the effect,
    a timer makes the deferred render call, a completion calls nothing,
    a click opens the svg if there is an opener and an svg. *)
Definition step_actions (host : Host) (ev : Event) (c : Comp) (w : World)
  : list Action :=
  match ev with
  | EvMutations ms =>
      match observer_callback (config c) ms with
      | Some t =>
          if decide (t = cur_theme c) then []
          else [ActDisconnect; ActObserve] ++
               effect_actions (chart c) (config c) t (id w)
      | None => []
      end
  | EvTimeout =>
      match timers w with
      | captured :: _ => [ActRender (render_id (id w)) captured]
      | [] => []
      end
  | EvRendered _ => []
  | EvChart s =>
      if decide (s = chart c) then []
      else [ActDisconnect; ActObserve] ++
           effect_actions s (config c) (cur_theme c) (id w)
  | EvClickOpener =>
      match config c ≫= showOpenLink with
      | Some true =>
          if decide (svg c = "") then []
          else
            let svgBlob := {| blobParts := [svg c]; blob_type := "image/svg+xml" |} in
            [ActCreateObjectURL svgBlob;
             ActWindowOpen (createObjectURL host svgBlob)]
      | _ => []
      end
  end%list.

(** *** After a throw *)

(** The engine call the render effect makes when [id] is [n]: the
    configuration the engine has been given, the identifier and the
    chart. Without a configuration the effect makes no call. *)
Definition effect_call (chart : string) (config : option Config)
    (theme : Theme) (n : N) : option (option (gmap string JsVal) * string * string) :=
  match config with
  | Some c => Some (Some (merged_config (mermaid c) theme), render_id n, chart)
  | None => None
  end.

(** The engine call a step makes, if it makes one: the re-run effect
    after a change of theme or chart, or the deferred [render] of the
    oldest timer. *)
Definition step_call (ev : Event) (c : Comp) (w : World)
  : option (option (gmap string JsVal) * string * string) :=
  match ev with
  | EvMutations ms =>
      match observer_callback (config c) ms with
      | Some t =>
          if decide (t = cur_theme c) then None
          else effect_call (chart c) (config c) t (id w)
      | None => None
      end
  | EvTimeout =>
      match timers w with
      | captured :: _ => Some (initialized w, render_id (id w), captured)
      | [] => None
      end
  | EvChart s =>
      if decide (s = chart c) then None
      else effect_call s (config c) (cur_theme c) (id w)
  | EvRendered _ | EvClickOpener => None
  end.

(** Whether the instance outlives a throw of the handler: a throw out of
    a timer, engine or click callback is reported to the host and the
    tree stays; a throw out of an effect, run after a change of theme or
    chart, reaches React, which unmounts the tree. *)
Definition survives (ev : Event) : bool :=
  match ev with
  | EvTimeout | EvRendered _ | EvClickOpener => true
  | EvMutations _ | EvChart _ => false
  end.

(** One event and what is left of the instance after it: [None] when
    React has unmounted it, which runs the observer's cleanup. *)
Definition handled (host : Host) (ev : Event) (s : Comp * World)
  : option Comp * World :=
  match step host ev s with
  | (Ok _, (c', w')) => (Some c', w')
  | (Throw _, (c', w')) =>
      if survives ev then (Some c', w')
      else (None, (unmount host w').2)
  end.

(** The life of a mounted instance over a list of events: it goes on
    after a throw it survives and ends with the first it does not. *)
Fixpoint session (host : Host) (evs : list Event) (c : Comp) (w : World)
  : option Comp * World :=
  match evs with
  | [] => (Some c, w)
  | ev :: rest =>
      match handled host ev (c, w) with
      | (Some c', w') => session host rest c' w'
      | (None, w') => (None, w')
      end
  end.

(** ** Properties *)

(** *** Teardown *)

Lemma observer_cleanup_ok host w :
  observer_cleanup host w = (Ok tt, emit ActDisconnect w).
Proof.
  unfold observer_cleanup, try_catch, observer_disconnect, bind, modify.
  by destruct (disconnect_error host (emit ActDisconnect w)).
Qed.

(** C6: unmounting never throws. Whatever [observer.disconnect()] does,
    also when it raises, the cleanup returns normally; its only trace is
    the disconnect call itself. *)
Theorem unmount_never_throws host w :
  unmount host w = (Ok tt, emit ActDisconnect w).
Proof. apply observer_cleanup_ok. Qed.

(** *** No window *)

(** C7: rendered where [window] is undefined, the component returns the
    empty [div] without throwing and leaves the world as it was: no
    observer is created, no timer is set, the engine is neither
    initialised nor asked to render, and no hook state (theme, svg) is
    held that a later callback could update. *)
Theorem Mermaid_without_window host chart config w :
  Mermaid host None chart config w = (Ok None, w) ∧ view None = EmptyDiv.
Proof. done. Qed.

(** *** The opener *)

(** C9: [openSvgInWindow] with an absent or empty svg returns without
    any call on the host and without throwing; with a non-empty svg it
    builds a blob of type image/svg+xml from the markup, makes an object
    URL of it and asks the window to open that URL. So in every state of
    the component a click on the opener while the svg state is empty
    changes nothing. *)
Theorem openSvgInWindow_spec host (artifact : option string) w :
  ((artifact = None ∨ artifact = Some "") →
     openSvgInWindow host artifact w = (Ok tt, w)) ∧
  (∀ s, artifact = Some s → s ≠ "" →
     let svgBlob := {| blobParts := [s]; blob_type := "image/svg+xml" |} in
     openSvgInWindow host artifact w =
       (Ok tt, emit (ActWindowOpen (createObjectURL host svgBlob))
                 (emit (ActCreateObjectURL svgBlob) w))) ∧
  (∀ c, Some (svg c) = artifact →
     step host EvClickOpener (c, w) =
       match config c ≫= showOpenLink with
       | Some true => for_instance c (openSvgInWindow host artifact w)
       | _ => (Ok tt, (c, w))
       end).
Proof.
  split_and!.
  - by intros [-> | ->].
  - intros s -> Hs. unfold openSvgInWindow.
    by destruct (decide (s = "")).
  - intros c <-. unfold step. unfold bind at 1, gets at 1.
    cbn [view fst snd].
    destruct (config c ≫= showOpenLink) as [[|]|]; try done.
    unfold liftW, for_instance. cbn [opener_svg fst snd].
    by destruct (openSvgInWindow _ _ _).
Qed.

Lemma openSvgInWindow_spec_witness :
  openSvgInWindow demo_host (Some "") fresh_world = (Ok tt, fresh_world) ∧
  log (snd (openSvgInWindow demo_host (Some "<svg/>") fresh_world)) =
    [ActCreateObjectURL {| blobParts := ["<svg/>"]; blob_type := "image/svg+xml" |};
     ActWindowOpen "blob:<svg/>"].
Proof.
  destruct (openSvgInWindow_spec demo_host (Some "") fresh_world) as (Hempty & _ & _).
  destruct (openSvgInWindow_spec demo_host (Some "<svg/>") fresh_world) as (_ & Hopen & _).
  split.
  - apply Hempty. by right.
  - by rewrite (Hopen "<svg/>" eq_refl).
Defined.

(** *** The render closure and the render effect *)

Lemma render_accepted host chart w s :
  mermaid_render host (initialized w) (render_id (id w)) chart = Ok s →
  render host chart w =
    (Ok tt,
     {| id := (id w + 1)%N; initialized := initialized w;
        inflight := inflight w ++
                      [{| req_seq := id w; req_chart := chart; req_svg := s |}];
        timers := timers w;
        log := log w ++ [ActRender (render_id (id w)) chart] |}).
Proof.
  intros H. unfold render, bind, gets, modify, engine_call. simpl.
  by rewrite H.
Qed.

Lemma render_rejected host chart w e :
  mermaid_render host (initialized w) (render_id (id w)) chart = Throw e →
  render host chart w = (Throw e, emit (ActRender (render_id (id w)) chart) w).
Proof.
  intros H. unfold render, bind, gets, modify, engine_call. simpl.
  by rewrite H.
Qed.

Lemma render_effect_config host chart c theme w :
  render_effect host chart (Some c) theme w =
    render host chart
      (set_initialized (merged_config (mermaid c) theme)
         (emit (ActInitialize (merged_config (mermaid c) theme)) w)).
Proof.
  unfold render_effect, mermaid_initialize, bind, modify.
  by destruct (mermaid c).
Qed.

Lemma render_effect_no_config host chart theme w :
  render_effect host chart None theme w =
    (Ok tt, set_timers (timers w ++ [chart]) (emit (ActSetTimeout 0) w)).
Proof. done. Qed.

(** The theme member written last wins over one given in the options. *)
Lemma merged_config_theme opts theme :
  merged_config opts theme !! "theme" = Some (VStr theme).
Proof. destruct opts; apply lookup_insert_eq. Qed.

Lemma merged_config_passthrough o theme k v :
  k ≠ "theme" → o !! k = Some v → merged_config (Some o) theme !! k = Some v.
Proof.
  intros Hk Hv. unfold merged_config.
  rewrite lookup_insert_ne by done.
  by apply lookup_union_Some_l.
Qed.

(** *** Commits, mounts and timers, in terms of the effects *)

Lemma commit_eq host c w :
  commit host (c, w) =
    for_instance c
      (render_effect host (chart c) (config c) (cur_theme c) (resubscribed w)).
Proof.
  unfold commit, liftW, for_instance. unfold bind at 1, gets at 1. simpl.
  unfold bind at 1. unfold bind at 1.
  rewrite observer_cleanup_ok. unfold observer_effect, modify.
  by destruct (render_effect _ _ _ _ _).
Qed.

Lemma Mermaid_eq host html chart config w :
  Mermaid host (Some html) chart config w =
    match render_effect host chart config (getTheme html config) (emit ActObserve w) with
    | (Ok _, w') => (Ok (Some (mounted html chart config)), w')
    | (Throw e, w') => (Throw e, w')
    end.
Proof.
  unfold Mermaid, bind, observer_effect, modify.
  by destruct (render_effect _ _ _ _ _) as [[[]|e] w'].
Qed.

Lemma step_timeout host c w captured rest :
  timers w = captured :: rest →
  step host EvTimeout (c, w) =
    for_instance c (render host captured (set_timers rest w)).
Proof.
  intros H. unfold step, liftW, for_instance, bind, gets, modify. simpl.
  rewrite H. simpl. by destruct (render _ _ _).
Qed.

Lemma theme_change_step host c w ms t :
  observer_callback (config c) ms = Some t → t ≠ cur_theme c →
  step host (EvMutations ms) (c, w) =
    for_instance (setTheme t c)
      (render_effect host (chart c) (config c) t (resubscribed w)).
Proof.
  intros Hcb Hne.
  unfold step, bind at 1, gets at 1. simpl. rewrite Hcb.
  destruct (decide (t = cur_theme c)); [done|].
  unfold bind, liftC, modify. simpl. by rewrite commit_eq.
Qed.

Lemma same_theme_step host c w ms :
  observer_callback (config c) ms = Some (cur_theme c) →
  step host (EvMutations ms) (c, w) = (Ok tt, (c, w)).
Proof.
  intros H. unfold step, bind, gets. simpl. rewrite H.
  by destruct (decide (cur_theme c = cur_theme c)).
Qed.

Lemma chart_change_step host c w s :
  s ≠ chart c →
  step host (EvChart s) (c, w) =
    for_instance (setChart s c)
      (render_effect host s (config c) (cur_theme c) (resubscribed w)).
Proof.
  intros Hne.
  unfold step, bind at 1, gets at 1. simpl.
  destruct (decide (s = chart c)); [done|].
  unfold bind, liftC, modify. simpl. by rewrite commit_eq.
Qed.

(** *** What a step leaves alone *)

Lemma liftW_comp {A} (m : M World A) c w r c' w' :
  liftW m (c, w) = (r, (c', w')) → c' = c.
Proof.
  unfold liftW. simpl. destruct (m w). by intros [= _ <- _].
Qed.

Lemma commit_comp host c w r c' w' :
  commit host (c, w) = (r, (c', w')) → c' = c.
Proof.
  unfold commit, bind, gets. simpl. apply liftW_comp.
Qed.

(** Only an engine completion changes the svg state. *)
Lemma step_keeps_svg host ev c w r c' w' :
  (∀ k, ev ≠ EvRendered k) →
  step host ev (c, w) = (r, (c', w')) → svg c' = svg c.
Proof.
  intros Hev. unfold step, bind at 1, gets at 1. simpl.
  destruct ev as [ms | | k | s | ].
  - destruct (observer_callback (config c) ms) as [t|]; [|by intros [= _ <- _]].
    destruct (decide (t = cur_theme c)); [by intros [= _ <- _]|].
    unfold bind, liftC, modify. simpl. intros H.
    by apply commit_comp in H as ->.
  - unfold bind, gets. simpl. destruct (timers w).
    + by intros [= _ <- _].
    + intros H. by apply liftW_comp in H as ->.
  - by destruct (Hev k).
  - destruct (decide (s = chart c)); [by intros [= _ <- _]|].
    unfold bind, liftC, modify. simpl. intros H.
    by apply commit_comp in H as ->.
  - destruct (config c ≫= showOpenLink) as [[|]|]; try by intros [= _ <- _].
    intros H. by apply liftW_comp in H as ->.
Qed.

(** An engine completion itself never throws. *)
Lemma step_rendered_ok host k c w :
  fst (step host (EvRendered k) (c, w)) = Ok tt.
Proof.
  unfold step, bind, gets. simpl.
  by destruct (inflight w !! k).
Qed.

Lemma run_keeps_svg host evs :
  ∀ c w r c' w',
    (∀ k, EvRendered k ∉ evs) →
    run host evs (c, w) = (r, (c', w')) → svg c' = svg c.
Proof.
  induction evs as [|ev evs IH]; intros c w r c' w' Hno.
  - by intros [= _ <- _].
  - simpl. unfold bind.
    destruct (step host ev (c, w)) as [[[]|e] [c1 w1]] eqn:Hstep.
    + intros Hrun. apply IH in Hrun.
      * rewrite Hrun. eapply step_keeps_svg; [|exact Hstep].
        intros k ->. apply (Hno k). left.
      * intros k Hk. apply (Hno k). by right.
    + intros [= _ <- _]. eapply step_keeps_svg; [|exact Hstep].
      intros k ->. apply (Hno k). left.
Qed.

Lemma Mermaid_mounted host html chart config w c w1 :
  Mermaid host (Some html) chart config w = (Ok (Some c), w1) →
  c = {| chart := chart; config := config;
         cur_theme := getTheme html config; svg := "" |}.
Proof.
  unfold Mermaid, bind, ret.
  destruct (observer_effect w) as [[[]|?] ?]; [|done].
  destruct (render_effect _ _ _ _ _) as [[[]|?] ?]; [|done].
  by intros [= <- _].
Qed.

Lemma click_with_empty_svg host c w :
  svg c = "" → step host EvClickOpener (c, w) = (Ok tt, (c, w)).
Proof.
  intros Hsvg. unfold step, bind, gets. simpl.
  destruct (config c ≫= showOpenLink) as [[|]|]; try done.
  unfold liftW. simpl. by rewrite Hsvg.
Qed.

(** *** Before the first completion *)

(** C10: from the mount until the first engine completion the svg state
    is the empty string, for every chart and configuration and whatever
    else happens in between (theme changes, chart changes, timers,
    clicks): the container's markup is empty and a click on the opener
    does nothing. *)
Theorem svg_empty_until_first_completion
    host html chart config w c w1 evs r c' w' :
  Mermaid host (Some html) chart config w = (Ok (Some c), w1) →
  (∀ k, EvRendered k ∉ evs) →
  run host evs (c, w1) = (r, (c', w')) →
  svg c' = "" ∧
  (∃ opener, view (Some c') = SvgWrapper opener "") ∧
  step host EvClickOpener (c', w') = (Ok tt, (c', w')).
Proof.
  intros Hmount Hno Hrun.
  apply Mermaid_mounted in Hmount. subst c.
  apply run_keeps_svg in Hrun; [|done]. simpl in Hrun.
  split; [done|]. split.
  - unfold view. rewrite Hrun. eauto.
  - by apply click_with_empty_svg.
Qed.

Lemma svg_empty_until_first_completion_witness :
  svg (fst (snd (run demo_host [EvMutations [to_light]; EvClickOpener; EvTimeout]
                   ({| chart := demo_chart; config := Some cfg_plain;
                       cur_theme := "dark"; svg := "" |},
                    snd (Mermaid demo_host (Some html_dark) demo_chart
                           (Some cfg_plain) fresh_world))))) = "".
Proof.
  destruct (run _ _ _) as [r [c' w']] eqn:Hrun. simpl.
  refine (proj1 (svg_empty_until_first_completion demo_host html_dark demo_chart
                   (Some cfg_plain) fresh_world _ _ _ r c' w' _ _ Hrun)).
  - vm_compute. reflexivity.
  - intros k Hk. repeat (apply elem_of_cons in Hk as [Hk|Hk]; [discriminate Hk|]).
    by apply elem_of_nil in Hk.
Defined.

(** *** The theme observer *)

Lemma observer_callback_unrelated config ms :
  Forall unrelated ms → observer_callback config ms = None.
Proof.
  induction 1 as [|m ms Hm _ IH]; [done|]. simpl.
  destruct Hm as [Hm | Hm].
  - by rewrite bool_decide_eq_false_2.
  - rewrite (bool_decide_eq_false_2 (attributeName m = _)) by done.
    by rewrite orb_true_r.
Qed.

(** C5: a batch of mutations of other attributes or of child content
    calls no state setter, and a [data-theme] mutation that resolves to
    the theme already held re-renders nothing: either way the instance
    and the world are unchanged, so the engine is neither initialised
    nor asked to render. *)
Theorem inert_mutations host c w ms :
  Forall unrelated ms ∨ observer_callback (config c) ms = Some (cur_theme c) →
  step host (EvMutations ms) (c, w) = (Ok tt, (c, w)).
Proof.
  intros [H | H].
  - unfold step, bind, gets. simpl. by rewrite observer_callback_unrelated.
  - exact (same_theme_step host c w ms H).
Qed.

Lemma inert_mutations_witness :
  step demo_host (EvMutations [class_changed; child_added])
       (showing "<svg/>", fresh_world) = (Ok tt, (showing "<svg/>", fresh_world)) ∧
  step demo_host (EvMutations [child_added; to_light; to_dark])
       (showing "<svg/>", fresh_world) = (Ok tt, (showing "<svg/>", fresh_world)).
Proof.
  split; apply inert_mutations.
  - left. constructor; [right; discriminate|].
    constructor; [left; discriminate|]. constructor.
  - right. reflexivity.
Defined.

(** *** Completions *)

Lemma step_rendered host k c w r :
  inflight w !! k = Some r →
  step host (EvRendered k) (c, w) =
    (Ok tt, (setSvg (req_svg r) c, set_inflight (delete k (inflight w)) w)).
Proof.
  intros H. unfold step, bind, gets. simpl. by rewrite H.
Qed.

Lemma run_in_issue_order host (reqs : list Request) :
  ∀ c w r,
    inflight w = (reqs ++ [r])%list →
    run host (replicate (length (reqs ++ [r])%list) (EvRendered 0)) (c, w) =
      (Ok tt, (setSvg (req_svg r) c, set_inflight [] w)).
Proof.
  induction reqs as [|a reqs IH]; intros c w r Hw; simpl; unfold bind.
  - rewrite (step_rendered host 0 c w r) by by rewrite Hw.
    by rewrite Hw.
  - rewrite (step_rendered host 0 c w a) by by rewrite Hw.
    rewrite Hw. simpl.
    by rewrite (IH (setSvg (req_svg a) c) (set_inflight (reqs ++ [r]) w) r).
Qed.

(** *** The queue of requests is in issue order *)










Lemma youngest_is_last w (reqs : list Request) r r' :
  issue_ordered w → inflight w = (reqs ++ [r])%list → r' ∈ reqs →
  (req_seq r' < req_seq r)%N.
Proof.
  intros [_ Hord] Hw [i Hi]%list_elem_of_lookup.
  apply (Hord i (length reqs) r' r).
  - by eapply lookup_lt_Some.
  - rewrite Hw. by apply lookup_app_l_Some.
  - rewrite Hw. by rewrite list_lookup_middle.
Qed.

(** C1, as the code has it: a completion puts its svg in the svg state
    whatever the age of its request, so the artifact shown is that of
    the completion that arrived last; the requests in flight are queued
    in the order they were issued, the last one being the youngest, and
    when they are answered in that order the artifact shown after the
    last answer is that of the request issued last. *)
Theorem latest_completion_wins host c w :
  (∀ k r, inflight w !! k = Some r →
     step host (EvRendered k) (c, w) =
       (Ok tt, (setSvg (req_svg r) c, set_inflight (delete k (inflight w)) w))) ∧
  (∀ reqs r, inflight w = (reqs ++ [r])%list →
     run host (replicate (length (inflight w)) (EvRendered 0)) (c, w) =
       (Ok tt, (setSvg (req_svg r) c, set_inflight [] w))) ∧
  (issue_ordered w →
   ∀ reqs r r', inflight w = (reqs ++ [r])%list → r' ∈ reqs →
                (req_seq r' < req_seq r)%N).
Proof.
  split_and!.
  - intros k r. apply step_rendered.
  - intros reqs r Hw. rewrite Hw. by apply run_in_issue_order.
  - intros Hw reqs r r'. by apply youngest_is_last.
Qed.

Lemma latest_completion_wins_witness :
  step demo_host (EvRendered 1) (showing "", two_in_flight) =
    (Ok tt, (showing (req_svg req_dark), set_inflight [req_light] two_in_flight)) ∧
  run demo_host [EvRendered 0; EvRendered 0] (showing "", two_in_flight) =
    (Ok tt, (showing (req_svg req_dark), set_inflight [] two_in_flight)).
Proof.
  destruct (latest_completion_wins demo_host (showing "") two_in_flight)
    as (H1 & H2 & _).
  split.
  - exact (H1 1 req_dark eq_refl).
  - exact (H2 [req_light] req_dark eq_refl).
Defined.

(** C1 fails as stated: mount under the light theme, change the theme to
    dark, let the engine answer the second request and then the first.
    The first request is stale when its answer arrives, and its svg
    replaces the one of the second request. *)
Lemma stale_completion_overwrites :
  ∃ c w c2 w2 c3 w3,
    Mermaid demo_host (Some html_light) demo_chart (Some cfg_plain) fresh_world
      = (Ok (Some c), w) ∧
    run demo_host [EvMutations [to_dark]; EvRendered 1] (c, w) = (Ok tt, (c2, w2)) ∧
    svg c2 = req_svg req_dark ∧
    inflight w2 = [req_light] ∧ stale req_light w2 ∧
    step demo_host (EvRendered 0) (c2, w2) = (Ok tt, (c3, w3)) ∧
    cur_theme c3 = "dark" ∧
    svg c3 = req_svg req_light ∧
    svg c3 ≠ svg c2.
Proof.
  do 6 eexists.
  split; [vm_compute; reflexivity|].
  split; [vm_compute; reflexivity|].
  split; [reflexivity|].
  split; [reflexivity|].
  split; [reflexivity|].
  split; [vm_compute; reflexivity|].
  split; [reflexivity|].
  split; [reflexivity|].
  discriminate.
Qed.

(** *** Engine initialisation *)

Lemma render_trace host chart w :
  log (render host chart w).2 = (log w ++ [ActRender (render_id (id w)) chart])%list ∧
  timers (render host chart w).2 = timers w.
Proof.
  destruct (mermaid_render host (initialized w) (render_id (id w)) chart)
    as [s|e] eqn:H.
  - by rewrite (render_accepted _ _ _ _ H).
  - by rewrite (render_rejected _ _ _ _ H).
Qed.

(** C2, as the code has it: with a configuration the engine is
    initialised immediately before every render call, with
    [startOnLoad], the engine options when there are any, and the
    resolved theme, which wins over a theme given in the options while
    every other option is passed through; nothing is deferred. Without a
    configuration the engine is not initialised at all, and it is the
    render call that is deferred by a zero-delay timer. *)
Theorem initialize_policy host chart config theme w :
  match config with
  | Some c =>
      let cfg := merged_config (mermaid c) theme in
      log (render_effect host chart config theme w).2 =
        (log w ++ [ActInitialize cfg; ActRender (render_id (id w)) chart])%list ∧
      timers (render_effect host chart config theme w).2 = timers w ∧
      cfg !! "theme" = Some (VStr theme) ∧
      (∀ o k v, mermaid c = Some o → k ≠ "theme" → o !! k = Some v →
                cfg !! k = Some v) ∧
      (mermaid c = None →
       cfg = <["theme" := VStr theme]> {["startOnLoad" := VBool true]})
  | None =>
      render_effect host chart config theme w =
        (Ok tt, set_timers (timers w ++ [chart]) (emit (ActSetTimeout 0) w))
  end.
Proof.
  destruct config as [c|]; [|done]. cbv zeta.
  rewrite render_effect_config.
  destruct (render_trace host chart
              (set_initialized (merged_config (mermaid c) theme)
                 (emit (ActInitialize (merged_config (mermaid c) theme)) w)))
    as [-> ->]. simpl.
  split; [by rewrite <- app_assoc|]. split; [done|].
  split; [apply merged_config_theme|]. split.
  - intros o k v -> Hk Hv. by apply merged_config_passthrough.
  - by intros ->.
Qed.

Lemma initialize_policy_witness :
  merged_config (mermaid cfg_options) "dark" !! "theme" = Some (VStr "dark") ∧
  merged_config (mermaid cfg_options) "dark" !! "securityLevel" = Some (VStr "loose").
Proof.
  destruct (initialize_policy demo_host demo_chart (Some cfg_options) "dark" fresh_world)
    as (_ & _ & Htheme & Hpass & _).
  split; [exact Htheme|].
  apply (Hpass _ "securityLevel" (VStr "loose") eq_refl); [discriminate|].
  vm_compute. reflexivity.
Defined.

(** C2 fails as stated: under a configuration without engine options
    the effect initialises the engine at once, before the render call of
    the same run and with no timer set, and it does so again on the next
    run. *)
Lemma initialize_without_options_is_immediate :
  let w1 := (render_effect demo_host demo_chart (Some cfg_plain) "light" fresh_world).2 in
  let w2 := (render_effect demo_host demo_chart (Some cfg_plain) "dark" w1).2 in
  mermaid cfg_plain = None ∧
  timers w1 = [] ∧
  log w1 = [ActInitialize (merged_config None "light");
            ActRender "mermaid-svg-0" demo_chart] ∧
  timers w2 = [] ∧
  log w2 = [ActInitialize (merged_config None "light");
            ActRender "mermaid-svg-0" demo_chart;
            ActInitialize (merged_config None "dark");
            ActRender "mermaid-svg-1" demo_chart].
Proof. vm_compute. repeat split; reflexivity. Qed.

(** *** Theme resolution *)

(** C3: [resolve] is defined on every input and has no effect. With a
    theme override it returns the identifier configured for the matching
    light or dark case, and nothing of the host attribute beyond that
    case enters the result; without one it maps the raw value of the
    attribute to light or dark and returns the key of the case, light
    whenever the attribute is absent or not recognised. *)
Theorem resolve_spec attr cfg :
  (∀ t, cfg ≫= theme = Some t →
     resolve attr cfg = match theme_key attr with
                        | Light => light t
                        | Dark => dark t
                        end) ∧
  (cfg ≫= theme = None →
     resolve attr cfg = match theme_key attr with
                        | Light => LIGHT_THEME_KEY
                        | Dark => DARK_THEME_KEY
                        end) ∧
  (attr ≠ Some DARK_THEME_KEY → theme_key attr = Light) ∧
  (attr = Some DARK_THEME_KEY → theme_key attr = Dark) ∧
  (∀ attr', theme_key attr' = theme_key attr → resolve attr' cfg = resolve attr cfg).
Proof.
  unfold resolve. repeat split.
  - by intros t ->.
  - by intros ->.
  - intros H. destruct attr as [a|]; [|done]. simpl.
    destruct (decide (a = DARK_THEME_KEY)); [|done]. by subst.
  - by intros ->.
  - by intros attr' ->.
Qed.

Lemma resolve_spec_witness :
  resolve (Some "light") (Some cfg_override) = "default" ∧
  resolve (Some "solarized") None = "light" ∧
  resolve None None = "light" ∧
  resolve (Some "dark") None = "dark".
Proof.
  split; [exact (proj1 (resolve_spec (Some "light") (Some cfg_override)) _ eq_refl)|].
  split; [exact (proj1 (proj2 (resolve_spec (Some "solarized") None)) eq_refl)|].
  split; [exact (proj1 (proj2 (resolve_spec None None)) eq_refl)|].
  exact (proj1 (proj2 (resolve_spec (Some "dark") None)) eq_refl).
Defined.

(** *** Render requests *)

(** C4, as the code has it: the mount, a change of the resolved theme
    and a change of the chart each run the render effect once, with the
    chart and theme then current. With a configuration, and the engine
    accepting the request, one run initialises the engine with the
    merged configuration, makes one render call with the chart and
    advances [id] by one. Without a configuration one run makes no
    render call and leaves [id] alone: it sets one zero-delay timer, and
    when that timer fires one render call is made with the captured
    chart under whatever configuration the engine then has, and [id]
    advances by one. *)
Theorem render_effect_requests host :
  (∀ html chart config w,
     Mermaid host (Some html) chart config w =
       match render_effect host chart config (getTheme html config)
               (emit ActObserve w) with
       | (Ok _, w') => (Ok (Some (mounted html chart config)), w')
       | (Throw e, w') => (Throw e, w')
       end) ∧
  (∀ c w ms t,
     observer_callback (config c) ms = Some t → t ≠ cur_theme c →
     step host (EvMutations ms) (c, w) =
       for_instance (setTheme t c)
         (render_effect host (chart c) (config c) t (resubscribed w))) ∧
  (∀ c w s,
     s ≠ chart c →
     step host (EvChart s) (c, w) =
       for_instance (setChart s c)
         (render_effect host s (config c) (cur_theme c) (resubscribed w))) ∧
  (∀ chart c theme w s,
     mermaid_render host (Some (merged_config (mermaid c) theme))
       (render_id (id w)) chart = Ok s →
     render_effect host chart (Some c) theme w =
       (Ok tt,
        {| id := (id w + 1)%N;
           initialized := Some (merged_config (mermaid c) theme);
           inflight := inflight w ++
                         [{| req_seq := id w; req_chart := chart; req_svg := s |}];
           timers := timers w;
           log := log w ++ [ActInitialize (merged_config (mermaid c) theme);
                            ActRender (render_id (id w)) chart] |})) ∧
  (∀ chart theme w,
     render_effect host chart None theme w =
       (Ok tt,
        {| id := id w; initialized := initialized w; inflight := inflight w;
           timers := timers w ++ [chart];
           log := log w ++ [ActSetTimeout 0] |})) ∧
  (∀ c w captured rest s,
     timers w = captured :: rest →
     mermaid_render host (initialized w) (render_id (id w)) captured = Ok s →
     step host EvTimeout (c, w) =
       (Ok tt,
        (c, {| id := (id w + 1)%N; initialized := initialized w;
               inflight := inflight w ++
                             [{| req_seq := id w; req_chart := captured;
                                 req_svg := s |}];
               timers := rest;
               log := log w ++ [ActRender (render_id (id w)) captured] |}))).
Proof.
  split_and!.
  - apply Mermaid_eq.
  - apply theme_change_step.
  - apply chart_change_step.
  - intros chart c theme w s H.
    rewrite render_effect_config.
    rewrite (render_accepted _ _ _ s) by done. simpl.
    by rewrite <- app_assoc.
  - done.
  - intros c w captured rest s Hts H.
    rewrite (step_timeout _ _ _ _ _ Hts).
    by rewrite (render_accepted _ _ _ s).
Qed.

Lemma render_effect_requests_witness :
  render_effect demo_host demo_chart (Some cfg_plain) "dark" fresh_world =
    (Ok tt,
     {| id := 1; initialized := Some (merged_config None "dark");
        inflight := [{| req_seq := 0; req_chart := demo_chart;
                        req_svg := "<svg id=mermaid-svg-0 theme=dark>graph TD; A-->B;</svg>" |}];
        timers := [];
        log := [ActInitialize (merged_config None "dark");
                ActRender "mermaid-svg-0" demo_chart] |}).
Proof.
  destruct (render_effect_requests demo_host) as (_ & _ & _ & H & _).
  apply (H demo_chart cfg_plain "dark" fresh_world). vm_compute. reflexivity.
Defined.

(** C4 fails as stated: mounted without a configuration under the dark
    theme, the effect issues no request and leaves [id] at 0, it only
    sets a timer; the request made when the timer fires carries the
    chart, and the engine has been given no theme. *)
Lemma effect_without_config_defers_request :
  ∃ c w w',
    Mermaid demo_host (Some html_dark) demo_chart None fresh_world
      = (Ok (Some c), w) ∧
    cur_theme c = "dark" ∧
    id w = 0%N ∧ inflight w = [] ∧ timers w = [demo_chart] ∧
    log w = [ActObserve; ActSetTimeout 0] ∧
    step demo_host EvTimeout (c, w) = (Ok tt, (c, w')) ∧
    id w' = 1%N ∧ initialized w' = None ∧
    log w' = [ActObserve; ActSetTimeout 0; ActRender "mermaid-svg-0" demo_chart] ∧
    inflight w' = [{| req_seq := 0; req_chart := demo_chart;
                      req_svg := "<svg id=mermaid-svg-0 theme=none>graph TD; A-->B;</svg>" |}].
Proof.
  do 3 eexists.
  split; [vm_compute; reflexivity|].
  do 5 (split; [reflexivity|]).
  split; [vm_compute; reflexivity|].
  repeat split.
Qed.

(** ** Further properties of the component *)

(** *** A step, event by event *)

Lemma step_eq host ev c w :
  step host ev (c, w) =
    match ev with
    | EvMutations ms =>
        match observer_callback (config c) ms with
        | Some t =>
            if decide (t = cur_theme c) then (Ok tt, (c, w))
            else for_instance (setTheme t c)
                   (render_effect host (chart c) (config c) t (resubscribed w))
        | None => (Ok tt, (c, w))
        end
    | EvTimeout =>
        match timers w with
        | captured :: rest =>
            for_instance c (render host captured (set_timers rest w))
        | [] => (Ok tt, (c, w))
        end
    | EvRendered k =>
        match inflight w !! k with
        | Some r => (Ok tt, (setSvg (req_svg r) c,
                             set_inflight (delete k (inflight w)) w))
        | None => (Ok tt, (c, w))
        end
    | EvChart s =>
        if decide (s = chart c) then (Ok tt, (c, w))
        else for_instance (setChart s c)
               (render_effect host s (config c) (cur_theme c) (resubscribed w))
    | EvClickOpener =>
        match config c ≫= showOpenLink with
        | Some true => for_instance c (openSvgInWindow host (Some (svg c)) w)
        | _ => (Ok tt, (c, w))
        end
    end.
Proof.
  destruct ev as [ms | | k | s | ].
  - destruct (observer_callback (config c) ms) as [t|] eqn:Hcb.
    + destruct (decide (t = cur_theme c)) as [->|Hne].
      * by apply same_theme_step.
      * by apply theme_change_step.
    + unfold step, bind, gets. simpl. by rewrite Hcb.
  - destruct (timers w) as [|captured rest] eqn:Hts.
    + unfold step, bind, gets. simpl. by rewrite Hts.
    + by apply step_timeout.
  - destruct (inflight w !! k) as [r|] eqn:Hk.
    + by apply step_rendered.
    + unfold step, bind, gets. simpl. by rewrite Hk.
  - destruct (decide (s = chart c)) as [->|Hne].
    + unfold step, bind, gets. simpl.
      by destruct (decide (chart c = chart c)).
    + by apply chart_change_step.
  - unfold step. unfold bind at 1, gets at 1. cbn [view fst snd].
    destruct (config c ≫= showOpenLink) as [[|]|]; try done.
    unfold liftW, for_instance. cbn [opener_svg fst snd].
    by destruct (openSvgInWindow _ _ _).
Qed.

(** A relation between states that holds across every step holds across
    every run. *)
Lemma run_preserves host (R : Comp * World → Comp * World → Prop) :
  (∀ s, R s s) →
  (∀ s1 s2 s3, R s1 s2 → R s2 s3 → R s1 s3) →
  (∀ ev c w, R (c, w) (step host ev (c, w)).2) →
  ∀ evs c w, R (c, w) (run host evs (c, w)).2.
Proof.
  intros Hrefl Htrans Hstep evs.
  induction evs as [|ev evs IH]; intros c w; [apply Hrefl|].
  simpl. unfold bind.
  pose proof (Hstep ev c w) as H1.
  destruct (step host ev (c, w)) as [[[]|e] [c1 w1]]; [|done].
  eapply Htrans; [exact H1|apply IH].
Qed.

(** What [render] does to each part of the world. *)
Lemma render_world host chart w :
  initialized (render host chart w).2 = initialized w ∧
  timers (render host chart w).2 = timers w ∧
  log (render host chart w).2 =
    (log w ++ [ActRender (render_id (id w)) chart])%list ∧
  (id w ≤ id (render host chart w).2 ≤ id w + 1)%N.
Proof.
  destruct (mermaid_render host (initialized w) (render_id (id w)) chart)
    as [s|e] eqn:H.
  - rewrite (render_accepted _ _ _ _ H). simpl. split_and!; try done; lia.
  - rewrite (render_rejected _ _ _ _ H). simpl. split_and!; try done; lia.
Qed.

(** What the render effect does to each part of the world. *)
Lemma render_effect_world host chart config theme w :
  initialized (render_effect host chart config theme w).2 =
    match config with
    | Some c => Some (merged_config (mermaid c) theme)
    | None => initialized w
    end ∧
  log (render_effect host chart config theme w).2 =
    (log w ++ effect_actions chart config theme (id w))%list ∧
  (id w ≤ id (render_effect host chart config theme w).2 ≤ id w + 1)%N.
Proof.
  destruct config as [c|].
  - rewrite render_effect_config.
    destruct (render_world host chart
                (set_initialized (merged_config (mermaid c) theme)
                   (emit (ActInitialize (merged_config (mermaid c) theme)) w)))
      as (-> & _ & -> & Hid).
    simpl in *. split_and!; [done|by rewrite <- app_assoc|apply Hid..].
  - rewrite render_effect_no_config. simpl. split_and!; try done; lia.
Qed.

Lemma count_app p (l1 l2 : list Action) :
  count p (l1 ++ l2) = count p l1 + count p l2.
Proof. unfold count. by rewrite List.filter_app, length_app. Qed.

Lemma count_effect_actions p chart config theme n :
  (p = is_observe ∨ p = is_disconnect ∨ p = is_open) →
  count p (effect_actions chart config theme n) = 0.
Proof. intros [-> | [-> | ->]]; by destruct config. Qed.

(** The trace of a step. *)
Lemma step_log host ev c w :
  log (step host ev (c, w)).2.2 = (log w ++ step_actions host ev c w)%list.
Proof.
  rewrite step_eq. destruct ev as [ms | | k | s | ]; simpl.
  - destruct (observer_callback (config c) ms) as [t|];
      [|by rewrite app_nil_r].
    destruct (decide (t = cur_theme c)); [by rewrite app_nil_r|].
    simpl. destruct (render_effect_world host (chart c) (config c) t
                       (resubscribed w)) as (_ & -> & _).
    simpl. by rewrite <- !app_assoc.
  - destruct (timers w) as [|captured rest]; [by rewrite app_nil_r|].
    simpl. by destruct (render_world host captured (set_timers rest w))
      as (_ & _ & -> & _).
  - destruct (inflight w !! k); simpl; by rewrite app_nil_r.
  - destruct (decide (s = chart c)); [by rewrite app_nil_r|].
    simpl. destruct (render_effect_world host s (config c) (cur_theme c)
                       (resubscribed w)) as (_ & -> & _).
    simpl. by rewrite <- !app_assoc.
  - destruct (config c ≫= showOpenLink) as [[|]|]; simpl;
      try by rewrite app_nil_r.
    destruct (decide (svg c = "")); simpl; [by rewrite app_nil_r|].
    by rewrite <- app_assoc.
Qed.

(** *** Identifiers *)

Lemma N_toString_inj n m : N_toString n = N_toString m → n = m.
Proof.
  unfold N_toString. intros H.
  apply (f_equal NilEmpty.uint_of_string) in H.
  rewrite !NilEmpty.usu in H.
  apply DecimalN.Unsigned.to_uint_inj. congruence.
Qed.

(** X1: two values of the counter never give the same element
    identifier. *)
Theorem render_id_inj n m : render_id n = render_id m → n = m.
Proof.
  unfold render_id. intros H. apply N_toString_inj.
  by simplify_eq/=.
Qed.

Lemma render_id_inj_witness : 7%N = 7%N.
Proof. exact (render_id_inj 7 7 eq_refl). Defined.



Lemma openSvgInWindow_world host artifact w :
  (openSvgInWindow host artifact w).1 = Ok tt ∧
  id (openSvgInWindow host artifact w).2 = id w ∧
  initialized (openSvgInWindow host artifact w).2 = initialized w ∧
  inflight (openSvgInWindow host artifact w).2 = inflight w ∧
  timers (openSvgInWindow host artifact w).2 = timers w.
Proof.
  destruct artifact as [s|]; [|done]. unfold openSvgInWindow.
  by destruct (decide (s = "")).
Qed.

(** No handler touches the configuration prop. *)
Lemma step_config host ev c w :
  config (step host ev (c, w)).2.1 = config c.
Proof.
  rewrite step_eq. destruct ev as [ms | | k | s | ]; simpl.
  - destruct (observer_callback (config c) ms) as [t|]; [|done].
    by destruct (decide (t = cur_theme c)).
  - by destruct (timers w).
  - by destruct (inflight w !! k).
  - by destruct (decide (s = chart c)).
  - by destruct (config c ≫= showOpenLink) as [[|]|].
Qed.

Lemma step_id host ev c w :
  (id w ≤ id (step host ev (c, w)).2.2 ≤ id w + 1)%N.
Proof.
  rewrite step_eq. destruct ev as [ms | | k | s | ]; simpl.
  - destruct (observer_callback (config c) ms) as [t|]; [|simpl; lia].
    destruct (decide (t = cur_theme c)); [simpl; lia|].
    apply (render_effect_world host (chart c) (config c) t (resubscribed w)).
  - destruct (timers w) as [|captured rest]; [simpl; lia|].
    apply (render_world host captured (set_timers rest w)).
  - destruct (inflight w !! k); simpl; lia.
  - destruct (decide (s = chart c)); [simpl; lia|].
    apply (render_effect_world host s (config c) (cur_theme c) (resubscribed w)).
  - destruct (config c ≫= showOpenLink) as [[|]|]; simpl; try lia.
    destruct (decide (svg c = "")); simpl; lia.
Qed.

(** X3: [id] never goes back, and a run of events advances it by at most
    one per event. *)
Theorem id_advances_slowly host evs :
  ∀ c w,
    (id w ≤ id (run host evs (c, w)).2.2 ≤ id w + N.of_nat (length evs))%N.
Proof.
  induction evs as [|ev evs IH]; intros c w; [simpl; lia|].
  cbn [run]. unfold bind.
  pose proof (step_id host ev c w) as Hstep.
  destruct (step host ev (c, w)) as [[[]|e] [c1 w1]]; simpl in Hstep.
  - specialize (IH c1 w1). cbn [length]. lia.
  - cbn [length snd]. lia.
Qed.

(** X4: a render call that throws does not use up its identifier: [id]
    is advanced after the call only, so the next call is made under the
    same identifier. *)
Theorem rejected_render_reuses_id host chart chart' w e :
  mermaid_render host (initialized w) (render_id (id w)) chart = Throw e →
  log (render host chart' (render host chart w).2).2 =
    (log w ++ [ActRender (render_id (id w)) chart;
               ActRender (render_id (id w)) chart'])%list.
Proof.
  intros H. rewrite (render_rejected _ _ _ _ H). cbn [snd].
  destruct (render_world host chart' (emit (ActRender (render_id (id w)) chart) w))
    as (_ & _ & -> & _).
  simpl. by rewrite <- app_assoc.
Qed.

Lemma rejected_render_reuses_id_witness :
  log (render demo_host demo_chart (render demo_host "" fresh_world).2).2 =
    [ActRender "mermaid-svg-0" ""; ActRender "mermaid-svg-0" demo_chart].
Proof.
  exact (rejected_render_reuses_id demo_host "" demo_chart fresh_world
           "Parse error" eq_refl).
Defined.

(** *** Observers *)





(** *** The engine's configuration *)

Lemma step_initialized_none host ev c w :
  config c = None →
  initialized (step host ev (c, w)).2.2 = initialized w.
Proof.
  intros Hc. rewrite step_eq. destruct ev as [ms | | k | s | ]; simpl.
  - destruct (observer_callback (config c) ms) as [t|]; [|done].
    destruct (decide (t = cur_theme c)); [done|]. simpl.
    destruct (render_effect_world host (chart c) (config c) t (resubscribed w))
      as (-> & _). by rewrite Hc.
  - destruct (timers w) as [|captured rest]; [done|]. simpl.
    by destruct (render_world host captured (set_timers rest w)) as (-> & _).
  - by destruct (inflight w !! k).
  - destruct (decide (s = chart c)); [done|]. simpl.
    destruct (render_effect_world host s (config c) (cur_theme c) (resubscribed w))
      as (-> & _). by rewrite Hc.
  - destruct (config c ≫= showOpenLink) as [[|]|]; try done.
    by destruct (decide (svg c = "")).
Qed.

Lemma step_initialized_some host ev c w cfg :
  config c = Some cfg →
  initialized w = Some (merged_config (mermaid cfg) (cur_theme c)) →
  initialized (step host ev (c, w)).2.2 =
    Some (merged_config (mermaid cfg) (cur_theme (step host ev (c, w)).2.1)).
Proof.
  intros Hc Hw. rewrite step_eq. destruct ev as [ms | | k | s | ]; simpl.
  - destruct (observer_callback (config c) ms) as [t|]; [|done].
    destruct (decide (t = cur_theme c)); [done|]. simpl.
    destruct (render_effect_world host (chart c) (config c) t (resubscribed w))
      as (-> & _). by rewrite Hc.
  - destruct (timers w) as [|captured rest]; [done|]. simpl.
    by destruct (render_world host captured (set_timers rest w)) as (-> & _).
  - by destruct (inflight w !! k).
  - destruct (decide (s = chart c)); [done|]. simpl.
    destruct (render_effect_world host s (config c) (cur_theme c) (resubscribed w))
      as (-> & _). by rewrite Hc.
  - destruct (config c ≫= showOpenLink) as [[|]|]; try done.
    by destruct (decide (svg c = "")).
Qed.

(** X6: an instance mounted without a configuration never initialises
    the engine: whatever happens to it, the engine's configuration stays
    what it was and no [mermaid.initialize] call is made. *)
Theorem no_config_never_initializes host evs c w :
  config c = None →
  initialized (run host evs (c, w)).2.2 = initialized w ∧
  count is_initialize (log (run host evs (c, w)).2.2) =
    count is_initialize (log w).
Proof.
  intros Hc.
  apply (run_preserves host
           (λ s s', config s.1 = None →
                    config s'.1 = None ∧
                    initialized s'.2 = initialized s.2 ∧
                    count is_initialize (log s'.2) = count is_initialize (log s.2)))
    with (evs := evs) (c := c) (w := w) in Hc; [tauto|done| |].
  - intros s1 s2 s3 H12 H23 H1.
    destruct (H12 H1) as (H2 & Hi & Hn).
    destruct (H23 H2) as (H3 & Hi' & Hn').
    split_and!; congruence.
  - intros ev c0 w0. simpl. intros H0.
    split; [by rewrite step_config|]. split.
    + by apply step_initialized_none.
    + rewrite step_log, count_app.
      assert (count is_initialize (step_actions host ev c0 w0) = 0) as ->; [|lia].
      destruct ev as [ms | | k | s | ]; simpl; rewrite ?H0.
      * destruct (observer_callback None ms) as [t|]; [|done].
        by destruct (decide (t = cur_theme c0)).
      * by destruct (timers w0).
      * done.
      * by destruct (decide (s = chart c0)).
      * simpl. done.
Qed.

Lemma no_config_never_initializes_witness :
  initialized
    (run demo_host [EvTimeout; EvMutations [to_dark]; EvTimeout]
       (mounted html_light demo_chart None,
        (Mermaid demo_host (Some html_light) demo_chart None fresh_world).2)).2.2
  = None.
Proof.
  exact (proj1 (no_config_never_initializes demo_host
                  [EvTimeout; EvMutations [to_dark]; EvTimeout]
                  (mounted html_light demo_chart None)
                  (Mermaid demo_host (Some html_light) demo_chart None fresh_world).2
                  eq_refl)).
Defined.

(** X7: for an instance mounted with a configuration, the engine's
    process-wide configuration follows the theme state: after the mount
    and after every run of events, also one that ends in a throw, the
    engine holds the merged configuration of the current theme. *)
Theorem engine_theme_follows_state host html chart cfg w c w1 evs :
  Mermaid host (Some html) chart (Some cfg) w = (Ok (Some c), w1) →
  let s' := (run host evs (c, w1)).2 in
  initialized s'.2 = Some (merged_config (mermaid cfg) (cur_theme s'.1)) ∧
  (initialized s'.2 ≫= (.!! "theme")) = Some (VStr (cur_theme s'.1)).
Proof.
  intros Hmount s'.
  assert (Hs' : config s'.1 = Some cfg ∧
                initialized s'.2 = Some (merged_config (mermaid cfg) (cur_theme s'.1))).
  { subst s'.
    apply (run_preserves host
             (λ s s', config s.1 = Some cfg ∧
                      initialized s.2 = Some (merged_config (mermaid cfg) (cur_theme s.1)) →
                      config s'.1 = Some cfg ∧
                      initialized s'.2 = Some (merged_config (mermaid cfg) (cur_theme s'.1)))).
    - done.
    - intros s1 s2 s3 H12 H23 H1. by apply H23, H12.
    - intros ev c0 w0 [Hc0 Hw0]. simpl in *. split.
      + by rewrite step_config.
      + by apply step_initialized_some.
    - rewrite Mermaid_eq in Hmount.
      destruct (render_effect_world host chart (Some cfg) (getTheme html (Some cfg))
                  (emit ActObserve w)) as (Hinit & _).
      destruct (render_effect _ _ _ _ _) as [[[]|e] w2]; [|done].
      injection Hmount as <- <-. by split. }
  destruct Hs' as [_ Hs']. split; [done|].
  rewrite Hs'. simpl. apply merged_config_theme.
Qed.

Lemma engine_theme_follows_state_witness :
  (initialized
     (run demo_host [EvMutations [to_dark]; EvRendered 0; EvChart ""]
        (mounted html_light demo_chart (Some cfg_options),
         (Mermaid demo_host (Some html_light) demo_chart (Some cfg_options)
            fresh_world).2)).2.2 ≫= (.!! "theme")) = Some (VStr "dark").
Proof.
  exact (proj2 (engine_theme_follows_state demo_host html_light demo_chart
                  cfg_options fresh_world _ _
                  [EvMutations [to_dark]; EvRendered 0; EvChart ""]
                  (ltac:(vm_compute; reflexivity)))).
Defined.

(** X8: [startOnLoad] defaults to true and can be set by the engine
    options, unlike the theme; the merged configuration has the keys of
    the options and these two, and no others. *)
Theorem merged_config_startOnLoad (o : gmap string JsVal) theme :
  merged_config (Some o) theme !! "startOnLoad" =
    Some (default (VBool true) (o !! "startOnLoad")) ∧
  merged_config None theme !! "startOnLoad" = Some (VBool true) ∧
  dom (merged_config (Some o) theme) = {["theme"; "startOnLoad"]} ∪ dom o ∧
  dom (merged_config None theme) = ({["theme"; "startOnLoad"]} : gset string).
Proof.
  unfold merged_config. split_and!.
  - rewrite lookup_insert_ne by done. rewrite lookup_union.
    destruct (o !! "startOnLoad") as [v|] eqn:Ho; simpl.
    + by rewrite lookup_singleton_eq.
    + by rewrite lookup_singleton_eq.
  - rewrite lookup_insert_ne by done. by rewrite lookup_singleton_eq.
  - rewrite dom_insert_L, dom_union_L, dom_singleton_L. set_solver.
  - rewrite dom_insert_L, dom_singleton_L. set_solver.
Qed.

(** *** The opener *)

Lemma count_open_step_actions host ev c w :
  config c ≫= showOpenLink ≠ Some true ∨ ev ≠ EvClickOpener →
  count is_open (step_actions host ev c w) = 0.
Proof.
  intros H. destruct ev as [ms | | k | s | ]; simpl.
  - destruct (observer_callback (config c) ms) as [t|]; [|done].
    destruct (decide (t = cur_theme c)); [done|].
    change (count is_open ([ActDisconnect; ActObserve] ++
              effect_actions (chart c) (config c) t (id w)) = 0).
    rewrite count_app, count_effect_actions; auto.
  - by destruct (timers w).
  - done.
  - destruct (decide (s = chart c)); [done|].
    change (count is_open ([ActDisconnect; ActObserve] ++
              effect_actions s (config c) (cur_theme c) (id w)) = 0).
    rewrite count_app, count_effect_actions; auto.
  - destruct H as [H | H]; [|done].
    by destruct (config c ≫= showOpenLink) as [[|]|].
Qed.

(** X9: nothing but a click on the opener opens a window, and there is
    no opener unless [showOpenLink] is set: over a run without clicks,
    or for an instance whose configuration does not set [showOpenLink],
    neither [URL.createObjectURL] nor [window.open] is called. *)
Theorem window_opened_by_click_only host evs :
  ∀ c w,
    config c ≫= showOpenLink ≠ Some true ∨ EvClickOpener ∉ evs →
    count is_open (log (run host evs (c, w)).2.2) = count is_open (log w).
Proof.
  induction evs as [|ev evs IH]; intros c w H; [done|].
  cbn [run]. unfold bind.
  pose proof (step_log host ev c w) as Hlog.
  pose proof (step_config host ev c w) as Hcfg.
  assert (Hev : config c ≫= showOpenLink ≠ Some true ∨ ev ≠ EvClickOpener).
  { destruct H as [H | H]; [by left|]. right. intros ->. apply H. left. }
  apply (count_open_step_actions host ev c w) in Hev.
  destruct (step host ev (c, w)) as [[[]|e] [c1 w1]]; simpl in Hlog, Hcfg.
  - rewrite IH.
    + rewrite Hlog, count_app. lia.
    + destruct H as [H | H]; [left; by rewrite Hcfg|].
      right. intros Hin. apply H. by right.
  - simpl. rewrite Hlog, count_app. lia.
Qed.

Lemma window_opened_by_click_only_witness :
  count is_open
    (log (run demo_host [EvRendered 0; EvMutations [to_dark]; EvRendered 0]
            (showing "", two_in_flight)).2.2) = 0.
Proof.
  refine (window_opened_by_click_only demo_host
            [EvRendered 0; EvMutations [to_dark]; EvRendered 0]
            (showing "") two_in_flight _).
  right. intros Hin.
  repeat (apply elem_of_cons in Hin as [Hin|Hin]; [discriminate Hin|]).
  by apply elem_of_nil in Hin.
Defined.

(** *** The observer callback *)

(** X10: the observer callback acts on the first [data-theme] record of
    a batch and on nothing after it: the records before it are skipped
    and the loop breaks, so later records, also later [data-theme]
    records, have no say in the theme that is set. *)
Theorem observer_callback_first_match config (before after : list MutationRecord) m :
  Forall unrelated before →
  type m = attributes → attributeName m = Some HTML_THEME_ATTRIBUTE →
  observer_callback config (before ++ m :: after) =
    Some (getTheme (target m) config).
Proof.
  intros Hbefore Htype Hname.
  induction Hbefore as [|m0 before Hm0 _ IH]; simpl.
  - rewrite Htype, Hname.
    by rewrite !bool_decide_eq_true_2.
  - destruct Hm0 as [Hm0 | Hm0].
    + by rewrite bool_decide_eq_false_2.
    + rewrite (bool_decide_eq_false_2 (attributeName m0 = _)) by done.
      by rewrite orb_true_r.
Qed.

Lemma observer_callback_first_match_witness :
  observer_callback (Some cfg_override)
    ([class_changed; child_added] ++ to_dark :: [to_light]) =
    Some (getTheme html_dark (Some cfg_override)).
Proof.
  apply (observer_callback_first_match (Some cfg_override)
           [class_changed; child_added] [to_light] to_dark); [|done|done].
  constructor; [right; discriminate|].
  constructor; [left; discriminate|]. constructor.
Defined.

(** *** Deferred renders *)

(** X11: the deferred render calls are made in the order their timers
    were set, each with the chart its closure captured, whatever the
    chart prop has become since. When the engine accepts these charts,
    firing all pending timers empties the timer queue, queues one
    request per timer in that order, advances [id] once per timer, and
    leaves the instance and the engine's configuration alone. *)
Theorem timers_fire_in_order host c (ts : list string) :
  ∀ w,
    timers w = ts →
    (∀ chart, chart ∈ ts → engine_accepts host chart) →
    let s' := run host (replicate (length ts) EvTimeout) (c, w) in
    s'.1 = Ok tt ∧ s'.2.1 = c ∧
    timers s'.2.2 = [] ∧
    req_chart <$> inflight s'.2.2 = ((req_chart <$> inflight w) ++ ts)%list ∧
    id s'.2.2 = (id w + N.of_nat (length ts))%N ∧
    initialized s'.2.2 = initialized w.
Proof.
  induction ts as [|captured ts IH]; intros w Hts Hacc.
  - simpl. rewrite Hts, app_nil_r. split_and!; try done. lia.
  - cbn [length replicate run]. unfold bind.
    rewrite (step_timeout host c w captured ts Hts).
    destruct (Hacc captured ltac:(left)
                (initialized (set_timers ts w)) (render_id (id (set_timers ts w))))
      as [s Hs].
    rewrite (render_accepted _ _ _ _ Hs). unfold for_instance. cbn [fst snd].
    match goal with |- context [run host _ (c, ?w1)] => specialize (IH w1) end.
    destruct IH as (H1 & H2 & H3 & H4 & H5 & H6).
    { done. }
    { intros chart Hin. apply Hacc. by right. }
    split_and!; try done.
    + rewrite H4. simpl. rewrite fmap_app. simpl. by rewrite <- app_assoc.
    + rewrite H5. simpl. lia.
Qed.

Lemma timers_fire_in_order_witness :
  req_chart <$>
    inflight (run demo_host [EvTimeout; EvTimeout]
                (showing "", set_timers [demo_chart; "graph LR; X-->Y;"] fresh_world)).2.2
  = [demo_chart; "graph LR; X-->Y;"].
Proof.
  refine (proj1 (proj2 (proj2 (proj2
            (timers_fire_in_order demo_host (showing "")
               [demo_chart; "graph LR; X-->Y;"]
               (set_timers [demo_chart; "graph LR; X-->Y;"] fresh_world)
               eq_refl _))))).
  intros chart Hin cfg rid.
  apply elem_of_cons in Hin as [-> | Hin]; [by eexists|].
  apply elem_of_cons in Hin as [-> | Hin]; [by eexists|].
  by apply elem_of_nil in Hin.
Defined.

(** *** Throws come from the engine only *)

Lemma render_effect_ok host chart config theme w :
  engine_accepts host chart →
  (render_effect host chart config theme w).1 = Ok tt.
Proof.
  intros Hacc. destruct config as [cfg|]; [|done].
  rewrite render_effect_config.
  match goal with |- (render host chart ?w1).1 = _ =>
    destruct (Hacc (initialized w1) (render_id (id w1))) as [s Hs];
    by rewrite (render_accepted _ _ _ _ Hs)
  end.
Qed.

(** X13: the handlers add no failure of their own. If the engine accepts
    the chart of every render call that is made (the charts the instance
    is given and the ones captured by pending timers), no run of events
    throws, also on a host whose [observer.disconnect()] throws each
    time the observer is replaced. *)
Theorem run_throws_only_from_engine host evs :
  ∀ c w,
    engine_accepts host (chart c) →
    (∀ s, EvChart s ∈ evs → engine_accepts host s) →
    (∀ s, s ∈ timers w → engine_accepts host s) →
    (run host evs (c, w)).1 = Ok tt.
Proof.
  induction evs as [|ev evs IH]; intros c w Hc Hevs Hts; [done|].
  cbn [run]. unfold bind.
  assert (Hstep : (step host ev (c, w)).1 = Ok tt ∧
                  engine_accepts host (chart (step host ev (c, w)).2.1) ∧
                  (∀ s, s ∈ timers (step host ev (c, w)).2.2 → engine_accepts host s)).
  { rewrite step_eq. destruct ev as [ms | | k | s | ].
    - destruct (observer_callback (config c) ms) as [t|]; [|done].
      destruct (decide (t = cur_theme c)); [done|].
      unfold for_instance. cbn [fst snd].
      split; [by apply render_effect_ok|]. split; [done|].
      destruct (config c) as [cfg|].
      + rewrite render_effect_config.
        match goal with |- context [render host _ ?w1] =>
          destruct (render_world host (chart c) w1) as (_ & -> & _) end.
        done.
      + rewrite render_effect_no_config. simpl.
        intros s [Hs | Hs]%elem_of_app; [by apply Hts|].
        apply list_elem_of_singleton in Hs as ->. done.
    - destruct (timers w) as [|captured rest] eqn:Hw;
        [split_and!; [done|done|]; simpl; by rewrite Hw|].
      unfold for_instance. cbn [fst snd].
      destruct (Hts captured ltac:(left) (initialized (set_timers rest w))
                  (render_id (id (set_timers rest w)))) as [s Hs].
      rewrite (render_accepted _ _ _ _ Hs). simpl.
      split_and!; try done. intros s0 Hin. apply Hts. by right.
    - by destruct (inflight w !! k).
    - destruct (decide (s = chart c)); [done|].
      assert (Hs : engine_accepts host s) by (apply Hevs; left).
      unfold for_instance. cbn [fst snd].
      split; [by apply render_effect_ok|]. split; [done|].
      destruct (config c) as [cfg|].
      + rewrite render_effect_config.
        match goal with |- context [render host _ ?w1] =>
          destruct (render_world host s w1) as (_ & -> & _) end.
        done.
      + rewrite render_effect_no_config. simpl.
        intros s0 [Hs0 | Hs0]%elem_of_app; [by apply Hts|].
        apply list_elem_of_singleton in Hs0 as ->. done.
    - destruct (config c ≫= showOpenLink) as [[|]|]; try done.
      unfold for_instance. cbn [fst snd].
      destruct (openSvgInWindow_world host (Some (svg c)) w)
        as (-> & _ & _ & _ & ->). done. }
  destruct (step host ev (c, w)) as [[[]|e] [c1 w1]]; simpl in Hstep.
  - apply IH; try tauto. intros s Hin. apply Hevs. by right.
  - by destruct Hstep.
Qed.

Lemma run_throws_only_from_engine_witness :
  (run demo_host [EvMutations [to_dark]; EvChart "graph LR; X-->Y;"; EvTimeout]
     (showing "", fresh_world)).1 = Ok tt.
Proof.
  apply run_throws_only_from_engine.
  - intros cfg rid. by eexists.
  - intros s Hin cfg rid.
    repeat (apply elem_of_cons in Hin as [Hin|Hin];
            [try discriminate Hin; injection Hin as ->; by eexists|]).
    by apply elem_of_nil in Hin.
  - intros s Hin. by apply elem_of_nil in Hin.
Defined.

(** *** Engine failures *)

Lemma render_effect_rejected host chart cfg theme w e :
  mermaid_render host (Some (merged_config (mermaid cfg) theme))
    (render_id (id w)) chart = Throw e →
  render_effect host chart (Some cfg) theme w =
    (Throw e,
     emit (ActRender (render_id (id w)) chart)
       (set_initialized (merged_config (mermaid cfg) theme)
          (emit (ActInitialize (merged_config (mermaid cfg) theme)) w))).
Proof.
  intros H. rewrite render_effect_config.
  exact (render_rejected host chart
           (set_initialized (merged_config (mermaid cfg) theme)
              (emit (ActInitialize (merged_config (mermaid cfg) theme)) w)) e H).
Qed.

Lemma render_effect_throws host chart config theme w e :
  (render_effect host chart config theme w).1 = Throw e →
  ∃ cfgE rid,
    effect_call chart config theme (id w) = Some (cfgE, rid, chart) ∧
    mermaid_render host cfgE rid chart = Throw e.
Proof.
  destruct config as [cfg|]; [|done].
  destruct (mermaid_render host (Some (merged_config (mermaid cfg) theme))
              (render_id (id w)) chart) as [s|e'] eqn:H.
  - rewrite render_effect_config. by erewrite render_accepted.
  - rewrite (render_effect_rejected _ _ _ _ _ _ H). intros [= ->].
    by eexists _, _.
Qed.

Lemma render_throws host chart w e :
  (render host chart w).1 = Throw e →
  mermaid_render host (initialized w) (render_id (id w)) chart = Throw e.
Proof.
  destruct (mermaid_render host (initialized w) (render_id (id w)) chart)
    as [s|e'] eqn:H.
  - by rewrite (render_accepted _ _ _ _ H).
  - rewrite (render_rejected _ _ _ _ H). by intros [= ->].
Qed.

Lemma step_rejected host ev c w cfgE rid txt e :
  step_call ev c w = Some (cfgE, rid, txt) →
  mermaid_render host cfgE rid txt = Throw e →
  (step host ev (c, w)).1 = Throw e ∧
  initialized (step host ev (c, w)).2.2 = cfgE ∧
  last (log (step host ev (c, w)).2.2) = Some (ActRender rid txt) ∧
  inflight (step host ev (c, w)).2.2 = inflight w ∧
  id (step host ev (c, w)).2.2 = id w ∧
  (survives ev = true → (step host ev (c, w)).2.1 = c).
Proof.
  intros Hcall Hrej. rewrite step_eq.
  destruct ev as [ms | | k | s | ]; simpl in Hcall; [| | done | | done].
  - destruct (observer_callback (config c) ms) as [t|]; [|done].
    destruct (decide (t = cur_theme c)); [done|].
    destruct (config c) as [cfg|]; [|done].
    injection Hcall as <- <- <-.
    rewrite (render_effect_rejected host (chart c) cfg t (resubscribed w) e Hrej).
    unfold for_instance. cbn [fst snd emit set_initialized log initialized inflight id].
    split_and!; try done. by rewrite last_snoc.
  - destruct (timers w) as [|captured rest]; [done|].
    injection Hcall as <- <- <-.
    rewrite (render_rejected host captured (set_timers rest w) e Hrej).
    unfold for_instance. cbn [fst snd emit set_timers log initialized inflight id].
    split_and!; try done. by rewrite last_snoc.
  - destruct (decide (s = chart c)); [done|].
    destruct (config c) as [cfg|]; [|done].
    injection Hcall as <- <- <-.
    rewrite (render_effect_rejected host s cfg (cur_theme c) (resubscribed w) e Hrej).
    unfold for_instance. cbn [fst snd emit set_initialized log initialized inflight id].
    split_and!; try done. by rewrite last_snoc.
Qed.

Lemma step_throws host ev c w e :
  (step host ev (c, w)).1 = Throw e →
  ∃ cfgE rid txt,
    step_call ev c w = Some (cfgE, rid, txt) ∧
    mermaid_render host cfgE rid txt = Throw e.
Proof.
  rewrite step_eq. destruct ev as [ms | | k | s | ]; simpl.
  - destruct (observer_callback (config c) ms) as [t|]; [|done].
    destruct (decide (t = cur_theme c)); [done|].
    unfold for_instance. cbn [fst]. intros H.
    apply render_effect_throws in H as (cfgE & rid & Hcall & Hrej).
    by exists cfgE, rid, (chart c).
  - destruct (timers w) as [|captured rest]; [done|].
    unfold for_instance. cbn [fst]. intros H%render_throws.
    by eexists _, _, _.
  - by destruct (inflight w !! k).
  - destruct (decide (s = chart c)); [done|].
    unfold for_instance. cbn [fst]. intros H.
    apply render_effect_throws in H as (cfgE & rid & Hcall & Hrej).
    by exists cfgE, rid, s.
  - destruct (config c ≫= showOpenLink) as [[|]|]; try done.
    by destruct (decide (svg c = "")).
Qed.

(** C8: no engine failure is caught in the component. At the mount, and
    for every step that makes an engine call (the effect re-run after a
    change of theme or of chart, and the deferred render of a timer),
    when the engine throws on that call the handler throws the same
    error; the call is the last thing the handler did, no request is
    queued and [id] is not advanced. Nothing is put in place of the
    artifact: after a throw out of an effect the instance is unmounted,
    after a throw out of a timer callback it is left exactly as it was.
    And a step throws for no other reason than an engine call that
    threw. *)
Theorem engine_failure_propagates host :
  (∀ html txt cfg w e,
     mermaid_render host
       (Some (merged_config (mermaid cfg) (getTheme html (Some cfg))))
       (render_id (id w)) txt = Throw e →
     ∃ w', Mermaid host (Some html) txt (Some cfg) w = (Throw e, w') ∧
           last (log w') = Some (ActRender (render_id (id w)) txt) ∧
           inflight w' = inflight w ∧ id w' = id w) ∧
  (∀ ev c w cfgE rid txt e,
     step_call ev c w = Some (cfgE, rid, txt) →
     mermaid_render host cfgE rid txt = Throw e →
     (step host ev (c, w)).1 = Throw e ∧
     initialized (step host ev (c, w)).2.2 = cfgE ∧
     last (log (step host ev (c, w)).2.2) = Some (ActRender rid txt) ∧
     inflight (step host ev (c, w)).2.2 = inflight w ∧
     id (step host ev (c, w)).2.2 = id w ∧
     (handled host ev (c, w)).1 = (if survives ev then Some c else None)) ∧
  (∀ ev c w e,
     (step host ev (c, w)).1 = Throw e →
     ∃ cfgE rid txt,
       step_call ev c w = Some (cfgE, rid, txt) ∧
       mermaid_render host cfgE rid txt = Throw e).
Proof.
  split_and!.
  - intros html txt cfg w e Hrej. rewrite Mermaid_eq.
    rewrite (render_effect_rejected host txt cfg (getTheme html (Some cfg))
               (emit ActObserve w) e Hrej).
    eexists. split; [done|]. simpl. split_and!; try done. by rewrite last_snoc.
  - intros ev c w cfgE rid txt e Hcall Hrej.
    destruct (step_rejected host ev c w cfgE rid txt e Hcall Hrej)
      as (Hthrow & Hinit & Hlast & Hin & Hid & Hc).
    split_and!; try done.
    unfold handled.
    destruct (step host ev (c, w)) as [[[]|e'] [c' w']]; [done|].
    destruct (survives ev); [|done]. simpl in Hc. by rewrite Hc.
  - apply step_throws.
Qed.

Lemma engine_failure_propagates_witness :
  (step demo_host (EvChart "") (showing "<svg/>", fresh_world)).1 = Throw "Parse error" ∧
  (handled demo_host (EvChart "") (showing "<svg/>", fresh_world)).1 = None ∧
  (handled demo_host EvTimeout (showing "<svg/>", set_timers [""] fresh_world)).1 =
    Some (showing "<svg/>").
Proof.
  destruct (engine_failure_propagates demo_host) as (_ & H & _).
  destruct (H (EvChart "") (showing "<svg/>") fresh_world
              (Some (merged_config None "light")) "mermaid-svg-0" ""
              "Parse error" eq_refl eq_refl) as (H1 & _ & _ & _ & _ & H2).
  destruct (H EvTimeout (showing "<svg/>") (set_timers [""] fresh_world)
              None "mermaid-svg-0" "" "Parse error" eq_refl eq_refl)
    as (_ & _ & _ & _ & _ & H3).
  split_and!; [exact H1|exact H2|exact H3].
Defined.

(** *** The artifact on display *)

Lemma handled_keeps_svg host ev c w c' w' :
  (∀ k, ev ≠ EvRendered k) →
  handled host ev (c, w) = (Some c', w') → svg c' = svg c.
Proof.
  intros Hev. unfold handled.
  destruct (step host ev (c, w)) as [[[]|e] [c1 w1]] eqn:Hstep.
  - intros [= <- _]. by eapply step_keeps_svg.
  - destruct (survives ev); [|done].
    intros [= <- _]. by eapply step_keeps_svg.
Qed.

(** X12: while the instance is mounted, the svg state is written by
    engine completions and by nothing else: after any list of theme
    changes, chart changes, timers (also ones whose render call throws)
    and clicks that leaves the instance mounted, the markup on display
    is the one that was there before; a change of theme or chart does
    not clear it. *)
Theorem svg_changes_on_completion_only host evs :
  ∀ c w c',
    (∀ k, EvRendered k ∉ evs) →
    (session host evs c w).1 = Some c' →
    svg c' = svg c ∧
    (∃ opener, view (Some c') = SvgWrapper opener (svg c)).
Proof.
  induction evs as [|ev evs IH]; intros c w c' Hno.
  - simpl. intros [= <-]. split; [done|]. unfold view. eauto.
  - cbn [session].
    destruct (handled host ev (c, w)) as [[c1|] w1] eqn:Hh; [|done].
    intros Hs. apply IH in Hs.
    + apply handled_keeps_svg in Hh.
      * by rewrite <- Hh.
      * intros k ->. apply (Hno k). left.
    + intros k Hk. apply (Hno k). by right.
Qed.

Lemma svg_changes_on_completion_only_witness :
  svg (setTheme "dark" (showing "<svg>old</svg>")) = "<svg>old</svg>".
Proof.
  refine (proj1 (svg_changes_on_completion_only demo_host
                   [EvTimeout; EvMutations [to_dark]; EvClickOpener]
                   (showing "<svg>old</svg>") (set_timers [""] fresh_world)
                   (setTheme "dark" (showing "<svg>old</svg>")) _ _)).
  - intros k Hin.
    repeat (apply elem_of_cons in Hin as [Hin|Hin]; [discriminate Hin|]).
    by apply elem_of_nil in Hin.
  - vm_compute. reflexivity.
Defined.
